(** * go-radit: registry ingestion and OID-tree assembly

    A shallow embedding of [internal/iso/pen.go] (the flat PEN registry
    scanner, the nested SMI registry walker, the cross-reference
    classifier, the identifier legalizer and the authority gathering),
    of [internal/common/dit.go] and [internal/common/util.go], and of the
    assembly driver [RADIT.Import].

    Go strings are byte strings; they are modelled by [string], whose
    characters are bytes.  The helpers of package [strings] act on ASCII:
    bytes from 128 on are neither letters nor white space here. *)

From Stdlib Require Import ZArith List Ascii String Bool Lia DecimalString.
From stdpp Require Import gmap strings list.

Open Scope string_scope.
Open Scope Z_scope.
Open Scope list_scope.
Import ListNotations.

(** ** The helpers of package [strings] that the sources alias in
    [util.go] ([lc], [uc], [eq], [split], ...). *)

Module Go.

Definition byte_of (c : ascii) : N := N_of_ascii c.

(** [unicode.IsDigit], [IsUpper], [IsLower] on a byte. *)
Definition isDigit (c : ascii) : bool :=
  (N.leb 48 (byte_of c) && N.leb (byte_of c) 57)%N.
Definition isUpper (c : ascii) : bool :=
  (N.leb 65 (byte_of c) && N.leb (byte_of c) 90)%N.
Definition isLower (c : ascii) : bool :=
  (N.leb 97 (byte_of c) && N.leb (byte_of c) 122)%N.

(** White space as [strings.TrimSpace] sees it on ASCII: tab, line feed,
    vertical tab, form feed, carriage return and space. *)
Definition isSpace (c : ascii) : bool :=
  (N.leb 9 (byte_of c) && N.leb (byte_of c) 13)%N || N.eqb (byte_of c) 32.

Definition lower_byte (c : ascii) : ascii :=
  if isUpper c then ascii_of_N (byte_of c + 32) else c.
Definition upper_byte (c : ascii) : ascii :=
  if isLower c then ascii_of_N (byte_of c - 32) else c.

Fixpoint map_bytes (f : ascii -> ascii) (s : string) : string :=
  match s with
  | EmptyString => EmptyString
  | String c r => String (f c) (map_bytes f r)
  end.

(** [lc = strings.ToLower], [uc = strings.ToUpper]. *)
Definition lc (s : string) : string := map_bytes lower_byte s.
Definition uc (s : string) : string := map_bytes upper_byte s.

(** [eq = strings.EqualFold]. *)
Definition eqFold (s t : string) : bool := String.eqb (lc s) (lc t).

Fixpoint mem_byte (c : ascii) (cutset : string) : bool :=
  match cutset with
  | EmptyString => false
  | String d r => Ascii.eqb c d || mem_byte c r
  end.

Fixpoint dropWhile (p : ascii -> bool) (s : string) : string :=
  match s with
  | EmptyString => EmptyString
  | String c r => if p c then dropWhile p r else s
  end.

Fixpoint dropWhileEnd (p : ascii -> bool) (s : string) : string :=
  match s with
  | EmptyString => EmptyString
  | String c r =>
      match dropWhileEnd p r with
      | EmptyString => if p c then EmptyString else String c EmptyString
      | r' => String c r'
      end
  end.

(** [trimS = strings.TrimSpace], [trimL = strings.TrimLeft],
    [trimR = strings.TrimRight] (the second argument is a cut set). *)
Definition trimS (s : string) : string := dropWhileEnd isSpace (dropWhile isSpace s).
Definition trimL (s cutset : string) : string := dropWhile (fun c => mem_byte c cutset) s.
Definition trimR (s cutset : string) : string := dropWhileEnd (fun c => mem_byte c cutset) s.

(** [hasPfx = strings.HasPrefix], [cutPfx = strings.CutPrefix]. *)
Definition hasPfx (s pfx : string) : bool := String.prefix pfx s.

Fixpoint drop (n : nat) (s : string) : string :=
  match n, s with
  | O, _ => s
  | S n', String _ r => drop n' r
  | S _, EmptyString => EmptyString
  end.

Fixpoint take (n : nat) (s : string) : string :=
  match n, s with
  | S n', String c r => String c (take n' r)
  | _, _ => EmptyString
  end.

Definition cutPfx (s pfx : string) : string * bool :=
  if hasPfx s pfx then (drop (String.length pfx) s, true) else (s, false).

(** [hasSfx = strings.HasSuffix]. *)
Fixpoint hasSfx (s sfx : string) : bool :=
  String.eqb s sfx ||
  match s with
  | EmptyString => false
  | String _ r => hasSfx r sfx
  end.

(** [ctns = strings.Contains]. *)
Fixpoint ctns (s sub : string) : bool :=
  String.prefix sub s ||
  match s with
  | EmptyString => false
  | String _ r => ctns r sub
  end.

(** [sidx = strings.Index]: the byte offset of the first occurrence, or
    [-1]. *)
Fixpoint sidx (s sub : string) : Z :=
  if String.prefix sub s then 0
  else match s with
       | EmptyString => -1
       | String _ r => let i := sidx r sub in if i =? -1 then -1 else i + 1
       end.

(** [idxr = strings.IndexRune] for a one-byte rune. *)
Definition idxr (s : string) (c : ascii) : Z := sidx s (String c EmptyString).

(** [split = strings.Split]; every call of the sources passes a one-byte
    separator, which is what the second argument is. *)
Fixpoint split (s : string) (sep : ascii) : list string :=
  match s with
  | EmptyString => [EmptyString]
  | String c r =>
      if Ascii.eqb c sep then EmptyString :: split r sep
      else match split r sep with
           | t :: ts => String c t :: ts
           | [] => [String c EmptyString]
           end
  end.

(** [join = strings.Join]. *)
Definition join (l : list string) (sep : string) : string := String.concat sep l.

(** [rplc = strings.ReplaceAll] for a non-empty [old]: occurrences are
    replaced from left to right without overlap.  [skip] counts the bytes
    of a match that are still to be passed over. *)
Fixpoint rplc_go (skip : nat) (s old new : string) : string :=
  match s with
  | EmptyString => EmptyString
  | String c r =>
      match skip with
      | S k => rplc_go k r old new
      | O =>
          if String.prefix old s
          then (new ++ rplc_go (String.length old - 1) r old new)%string
          else String c (rplc_go O r old new)
      end
  end.

Definition rplc (s old new : string) : string :=
  match old with
  | EmptyString => s
  | _ => rplc_go O s old new
  end.

(** [itoa = strconv.Itoa]. *)
Definition itoa (z : Z) : string := NilZero.string_of_int (Z.to_int z).

(** The value of a string of decimal digits. *)
Fixpoint digits_value (acc : Z) (s : string) : Z :=
  match s with
  | EmptyString => acc
  | String c r => digits_value (10 * acc + Z.of_N (byte_of c - 48)) r
  end.

Fixpoint allb_bytes (p : ascii -> bool) (s : string) : bool :=
  match s with
  | EmptyString => true
  | String c r => p c && allb_bytes p r
  end.

Fixpoint span_digits (s : string) : string :=
  match s with
  | String c r =>
      if isDigit c || Ascii.eqb c "_" then String c (span_digits r) else EmptyString
  | EmptyString => EmptyString
  end.

(** [fmt.Sscanf(line, "%d", &x)]: leading white space is passed over, an
    optional sign is accepted, then the longest run of digits (and
    underscores, which the conversion then refuses) is converted; what
    follows the number is left unread.  [None] is the error case, in
    which [x] keeps its value; a value outside the 64-bit [int] is an
    error as well. *)
Definition Sscanf_d (line : string) : option Z :=
  let s := dropWhile isSpace line in
  let '(neg, s) :=
    match s with
    | String "-" r => (true, r)
    | String "+" r => (false, r)
    | _ => (false, s)
    end in
  let tok := span_digits s in
  if (String.length tok =? 0)%nat then None
  else if negb (allb_bytes isDigit tok) then None
  else
    let v := digits_value 0 tok in
    let v := if neg then - v else v in
    if (- 2 ^ 63 <=? v) && (v <=? 2 ^ 63 - 1) then Some v else None.

End Go.

(** ** The entry model (package go-radir)

    The tree-assembly code drives an external entry model through a
    small contract: construct a root, allocate a child by arc, canonical
    dot notation, get/set identifier, notation, info, status, URI, range
    and contact fields, sort children by number.  The part of it that
    the registry code calls is modelled here. *)

Module radir.

(** [common.IsNumber] (and the entry model's own test of a number form):
    a non-empty string of decimal digits. *)
Definition IsNumber (n : string) : bool :=
  negb (String.length n =? 0)%nat && Go.allb_bytes Go.isDigit n.

Record X680 : Type := mkX680 {
  N : string;
  Identifier : string;
  ASN1Notation : string;
  IRI : string;
  NameAndNumberForm : string }.

Record CurrentAuthority : Type := mkCurrentAuthority {
  CN : string;
  Org : string;
  Email : string;
  AuthURI : string }.

Record X660 : Type := mkX660 {
  UnicodeValue : string;
  CurrentAuthorities : list string;
  CombinedCurrentAuthority : CurrentAuthority }.

Record Supplement : Type := mkSupplement {
  Info : string;
  Status : string;
  URI : string;
  Range : string }.

(** A registration owns its children, in insertion order until sorted. *)
#[warnings="-register-all"]
Inductive Registration : Type := mkRegistration {
  R_X680 : X680;
  R_X660 : X660;
  R_Supplement : Supplement;
  R_DN : string;
  R_Description : string;
  Children : list Registration }.

Record Registrant : Type := mkRegistrant {
  A_DN : string;
  A_Description : string;
  A_CurrentAuthority : CurrentAuthority }.

Inductive Dimension : Type := TwoDimensional | ThreeDimensional.

Record DITProfile : Type := mkDITProfile {
  Dedicated : bool;
  Combined : bool;
  Model : Dimension;
  RegistrationBase : string;
  RegistrantBase : string }.

Definition zeroAuthority : CurrentAuthority := mkCurrentAuthority "" "" "" "".

(** Modelled from the spec: [DITProfile.NewRegistration] and
    [DITProfile.NewRegistrant] of go-radir, which is not part of these
    sources; "construct-a-root-node" gives an entry with every attribute
    unset and no child. *)
Definition NewRegistration : Registration :=
  mkRegistration (mkX680 "" "" "" "" "") (mkX660 "" [] zeroAuthority)
                 (mkSupplement "" "" "" "") "" "" [].

Definition NewRegistrant : Registrant := mkRegistrant "" "" zeroAuthority.

(** *** Setters ("get/set" of the collaborator contract): each replaces
    the attribute; authority keys accumulate. *)

Definition withX680 (f : X680 -> X680) (r : Registration) : Registration :=
  mkRegistration (f (R_X680 r)) (R_X660 r) (R_Supplement r) (R_DN r)
                 (R_Description r) (Children r).
Definition withX660 (f : X660 -> X660) (r : Registration) : Registration :=
  mkRegistration (R_X680 r) (f (R_X660 r)) (R_Supplement r) (R_DN r)
                 (R_Description r) (Children r).
Definition withSupplement (f : Supplement -> Supplement) (r : Registration) : Registration :=
  mkRegistration (R_X680 r) (R_X660 r) (f (R_Supplement r)) (R_DN r)
                 (R_Description r) (Children r).
Definition withChildren (f : list Registration -> list Registration)
    (r : Registration) : Registration :=
  mkRegistration (R_X680 r) (R_X660 r) (R_Supplement r) (R_DN r)
                 (R_Description r) (f (Children r)).

Definition SetN (v : string) : Registration -> Registration :=
  withX680 (fun x => mkX680 v (Identifier x) (ASN1Notation x) (IRI x) (NameAndNumberForm x)).
Definition SetIdentifier (v : string) : Registration -> Registration :=
  withX680 (fun x => mkX680 (N x) v (ASN1Notation x) (IRI x) (NameAndNumberForm x)).
Definition SetASN1Notation (v : string) : Registration -> Registration :=
  withX680 (fun x => mkX680 (N x) (Identifier x) v (IRI x) (NameAndNumberForm x)).
Definition SetIRI (v : string) : Registration -> Registration :=
  withX680 (fun x => mkX680 (N x) (Identifier x) (ASN1Notation x) v (NameAndNumberForm x)).
Definition SetNameAndNumberForm (v : string) : Registration -> Registration :=
  withX680 (fun x => mkX680 (N x) (Identifier x) (ASN1Notation x) (IRI x) v).

Definition SetUnicodeValue (v : string) : Registration -> Registration :=
  withX660 (fun x => mkX660 v (CurrentAuthorities x) (CombinedCurrentAuthority x)).
Definition SetCurrentAuthorities (dn : string) : Registration -> Registration :=
  withX660 (fun x => mkX660 (UnicodeValue x) (CurrentAuthorities x ++ [dn])
                            (CombinedCurrentAuthority x)).
Definition withCombined (f : CurrentAuthority -> CurrentAuthority) : Registration -> Registration :=
  withX660 (fun x => mkX660 (UnicodeValue x) (CurrentAuthorities x)
                            (f (CombinedCurrentAuthority x))).

Definition SetCN (v : string) (a : CurrentAuthority) : CurrentAuthority :=
  mkCurrentAuthority v (Org a) (Email a) (AuthURI a).
Definition SetO (v : string) (a : CurrentAuthority) : CurrentAuthority :=
  mkCurrentAuthority (CN a) v (Email a) (AuthURI a).
Definition SetEmail (v : string) (a : CurrentAuthority) : CurrentAuthority :=
  mkCurrentAuthority (CN a) (Org a) v (AuthURI a).
Definition SetAuthURI (v : string) (a : CurrentAuthority) : CurrentAuthority :=
  mkCurrentAuthority (CN a) (Org a) (Email a) v.

Definition SetInfo (v : string) : Registration -> Registration :=
  withSupplement (fun s => mkSupplement v (Status s) (URI s) (Range s)).
Definition SetStatus (v : string) : Registration -> Registration :=
  withSupplement (fun s => mkSupplement (Info s) v (URI s) (Range s)).
Definition SetURI (v : string) : Registration -> Registration :=
  withSupplement (fun s => mkSupplement (Info s) (Status s) v (Range s)).
Definition SetRange (v : string) : Registration -> Registration :=
  withSupplement (fun s => mkSupplement (Info s) (Status s) (URI s) v).

Definition SetDN (v : string) (r : Registration) : Registration :=
  mkRegistration (R_X680 r) (R_X660 r) (R_Supplement r) v (R_Description r) (Children r).
Definition SetDescription (v : string) (r : Registration) : Registration :=
  mkRegistration (R_X680 r) (R_X660 r) (R_Supplement r) (R_DN r) v (Children r).

Definition withAuthority (f : CurrentAuthority -> CurrentAuthority) (a : Registrant) : Registrant :=
  mkRegistrant (A_DN a) (A_Description a) (f (A_CurrentAuthority a)).
Definition SetRegistrantDN (v : string) (a : Registrant) : Registrant :=
  mkRegistrant v (A_Description a) (A_CurrentAuthority a).
Definition SetRegistrantDescription (v : string) (a : Registrant) : Registrant :=
  mkRegistrant (A_DN a) v (A_CurrentAuthority a).

(** *** Pointers into a root subtree

    A [*Registration] below a root is the list of child positions that
    leads to it; [None] is the nil pointer, on which every getter gives
    the zero value and every setter does nothing. *)

Definition path : Type := list nat.

Fixpoint get (p : path) (t : Registration) : option Registration :=
  match p with
  | [] => Some t
  | i :: p' =>
      match nth_error (Children t) i with
      | Some c => get p' c
      | None => None
      end
  end.

Fixpoint alter_nth {A : Type} (f : A -> A) (i : nat) (l : list A) : list A :=
  match l, i with
  | [], _ => []
  | x :: l', O => f x :: l'
  | x :: l', S i' => x :: alter_nth f i' l'
  end.

Fixpoint alter_at (f : Registration -> Registration) (p : path)
    (t : Registration) : Registration :=
  match p with
  | [] => f t
  | i :: p' => withChildren (alter_nth (alter_at f p') i) t
  end.

Definition deref (p : option path) (t : Registration) : Registration :=
  match p with
  | Some p' => match get p' t with Some r => r | None => NewRegistration end
  | None => NewRegistration
  end.

Definition IsZero (p : option path) : bool :=
  match p with Some _ => false | None => true end.

Definition update (p : option path) (f : Registration -> Registration)
    (t : Registration) : Registration :=
  match p with
  | Some p' => alter_at f p' t
  | None => t
  end.

(** [Children().Get(number)]: the position of the first child with that
    number form. *)
Fixpoint find_child (nf : string) (cs : list Registration) : option nat :=
  match cs with
  | [] => None
  | c :: cs' =>
      if String.eqb (N (R_X680 c)) nf then Some O
      else option_map S (find_child nf cs')
  end.

Fixpoint numbers_along (p : path) (t : Registration) : list string :=
  N (R_X680 t) ::
  match p with
  | [] => []
  | i :: p' =>
      match nth_error (Children t) i with
      | Some c => numbers_along p' c
      | None => []
      end
  end.

(** Modelled from the spec: [X680.DotNotation] of go-radir, the
    "canonical dot-notation" of a node: the number forms from the root
    down to it, joined by dots; empty for the nil pointer. *)
Definition DotNotation (p : option path) (t : Registration) : string :=
  match p with
  | Some p' => match get p' t with
               | Some _ => Go.join (numbers_along p' t) "."
               | None => ""
               end
  | None => ""
  end.

(** Modelled from the spec: [Registration.NewChild] of go-radir,
    "allocate-a-child-by-arc": a new last child carrying the number form
    and the identifier it is given; a number form that is not a number
    allocates nothing (nil). *)
Definition newSubordinate (nf id : string) : Registration :=
  SetIdentifier id (SetN nf NewRegistration).

Definition NewChild (parent : option path) (nf id : string)
    (t : Registration) : Registration * option path :=
  match parent with
  | Some p =>
      match get p t with
      | Some r =>
          if IsNumber nf
          then (alter_at (withChildren (fun cs => cs ++ [newSubordinate nf id])) p t,
                Some (p ++ [List.length (Children r)]))
          else (t, None)
      | None => (t, None)
      end
  | None => (t, None)
  end.

(** [Children().Get(number)] on a pointer. *)
Definition ChildrenGet (parent : option path) (nf : string)
    (t : Registration) : option path :=
  match parent with
  | Some p =>
      match get p t with
      | Some r => option_map (fun i => p ++ [i]) (find_child nf (Children r))
      | None => None
      end
  | None => None
  end.

(** *** Path and notation utilities *)

(** One element of a bracketed notation: ["name(number)"] or a bare
    number form.  The result pairs the number form with the name. *)
Definition parseNameAndNumber (tok : string) : option (string * string) :=
  let i := Go.idxr tok "(" in
  if i =? -1 then
    if IsNumber tok then Some (tok, "") else None
  else
    let name := Go.take (Z.to_nat i) tok in
    let inner := Go.trimR (Go.drop (Z.to_nat i + 1) tok) ")" in
    if IsNumber inner then Some (inner, name) else None.

Fixpoint parseArcs (toks : list string) : option (list (string * string)) :=
  match toks with
  | [] => Some []
  | tok :: rest =>
      match parseNameAndNumber tok, parseArcs rest with
      | Some a, Some l => Some (a :: l)
      | _, _ => None
      end
  end.

(** A numeric path is given in dot notation ("1.3.6.1") or in bracketed
    notation ("{iso(1) identified-organization(3)}"). *)
Definition parsePath (s : string) : option (list (string * string)) :=
  if Go.hasPfx s "{"
  then parseArcs (Go.split (Go.trimS (Go.trimR (Go.trimL s "{") "}")) " ")
  else parseArcs (Go.split s ".").

Fixpoint allocate_arcs (arcs : list (string * string)) (t : Registration)
    : Registration * path :=
  match arcs with
  | [] => (t, [])
  | (nf, id) :: rest =>
      match find_child nf (Children t) with
      | Some i =>
          match nth_error (Children t) i with
          | Some c =>
              let '(c', p) := allocate_arcs rest c in
              (withChildren (alter_nth (fun _ => c') i) t, i :: p)
          | None => (t, [])
          end
      | None =>
          let '(c', p) := allocate_arcs rest (newSubordinate nf id) in
          (withChildren (fun cs => cs ++ [c']) t, List.length (Children t) :: p)
      end
  end.

(** Modelled from the spec: [Registration.Allocate] of go-radir,
    "allocate(path)": returns the existing node at that path or creates
    it and every missing ancestor, shallowest first, and returns the
    leaf; existing nodes are left as they are.  A malformed path, or one
    that does not start at the receiving root, allocates nothing and
    gives the nil pointer. *)
Definition Allocate (s : string) (root : Registration) : Registration * option path :=
  match parsePath s with
  | Some ((nf, _) :: rest) =>
      if String.eqb nf (N (R_X680 root))
      then let '(root', p) := allocate_arcs rest root in (root', Some p)
      else (root, None)
  | _ => (root, None)
  end.

Fixpoint walk_arcs (arcs : list string) (t : Registration) : option path :=
  match arcs with
  | [] => Some []
  | nf :: rest =>
      match find_child nf (Children t) with
      | Some i =>
          match nth_error (Children t) i with
          | Some c => option_map (cons i) (walk_arcs rest c)
          | None => None
          end
      | None => None
      end
  end.

(** Modelled from the spec: [Registration.Walk] of go-radir,
    "lookup(path)": the node at that dotted path, or nil; never
    creates. *)
Definition Walk (dot : string) (root : Registration) : option path :=
  match Go.split dot "." with
  | nf :: rest =>
      if String.eqb nf (N (R_X680 root)) then walk_arcs rest root else None
  | [] => None
  end.

(** *** Sorting by number form *)

Definition numberValue (r : Registration) : Z := Go.digits_value 0 (N (R_X680 r)).

Fixpoint insertByNumber (r : Registration) (l : list Registration) : list Registration :=
  match l with
  | [] => [r]
  | x :: l' =>
      if numberValue r <? numberValue x then r :: l
      else x :: insertByNumber r l'
  end.

Definition sortList (l : list Registration) : list Registration :=
  fold_left (fun acc r => insertByNumber r acc) l [].

(** Modelled from the spec: [SortByNumberForm] of go-radir,
    "sortByNumber() reorders a node's children (and recursively its
    whole subtree) by ascending numeric arc value"; equal arcs keep
    their order. *)
Fixpoint sortSubtree (t : Registration) : Registration :=
  match t with
  | mkRegistration a b c d e cs =>
      mkRegistration a b c d e (sortList (List.map sortSubtree cs))
  end.

Definition SortByNumberForm (cs : list Registration) : list Registration :=
  sortList (List.map sortSubtree cs).

(** *** Distinguished names *)

(** Modelled from the spec: [DotNotToDN3D] and [DotNotToDN2D] of
    go-radir; the three-dimensional form lists the arcs leaf first
    ([enterpriseRDNSeq] is "n=1,n=4,n=1,n=6,n=3,n=1" for 1.3.6.1.4.1),
    the two-dimensional form names the whole dotted path. *)
Definition DotNotToDN3D (dot base : string) : string :=
  Go.join (List.map (fun a => ("n=" ++ a)%string) (List.rev (Go.split dot ".")) ++ [base]) ",".
Definition DotNotToDN2D (dot base : string) : string :=
  ("dotNotation=" ++ dot ++ "," ++ base)%string.

(** Modelled from the spec: [RegistrantDNGenerator] of go-radir gives
    every authority a distinguished name of its own; the names are
    numbered by a counter kept with the tree. *)
Definition RegistrantDNGenerator (seq : nat) (base : string) : string :=
  ("registrantID=" ++ Go.itoa (Z.of_nat seq) ++ "," ++ base)%string.

End radir.

(** Go's [error]: the message; [mkerr = errors.New]. *)
Definition error : Type := string.
Definition mkerr (msg : string) : error := msg.

(** ** [internal/common/dit.go] *)

Module common.

Definition RFCURIPrefix : string := "https://datatracker.ietf.org/doc/html/".
Definition RFCErrataPrefix : string := "https://www.rfc-editor.org/errata_search.php?eid=".
Definition IANAAssignmentsPrefix : string := "https://iana.org/assignments/".

(** [RemoveNL] replaces every line feed by the two bytes backslash, n. *)
Definition RemoveNL (s : string) : string :=
  Go.rplc s (String (ascii_of_N 10) EmptyString) "\n".

Fixpoint CondenseWHSP_go (last : bool) (b : string) : string :=
  match b with
  | EmptyString => EmptyString
  | String c r =>
      if (N.eqb (Go.byte_of c) 9 || N.eqb (Go.byte_of c) 32)%bool
      then if last then CondenseWHSP_go true r
           else String (ascii_of_N 32) (CondenseWHSP_go true r)
      else String c (CondenseWHSP_go false r)
  end.

Definition CondenseWHSP (b : string) : string := CondenseWHSP_go false (Go.trimS b).

Definition IsNumber : string -> bool := radir.IsNumber.

(** [trimNL]: the line feeds at both ends are taken off. *)
Definition trimNL (in_ : string) : string :=
  let nl := String (ascii_of_N 10) EmptyString in
  Go.trimR (Go.trimL in_ nl) nl.

(** The loop of [checkOIDValues] from index [ix] on: [rest] holds
    [isp[ix:]] and [n] is [len(isp)].  The lengths are compared at
    every turn, before [spl[ix]] is read. *)
Fixpoint checkOIDValues_from (n : nat) (spl rest : list string) (ix : nat)
    : option error :=
  match rest with
  | [] => None
  | arc :: rest' =>
      if negb (n =? List.length spl)%nat then Some (mkerr "Length mismatch")
      else if IsNumber arc then
        if negb (String.eqb arc (nth ix spl "")) then Some (mkerr "Arc mismatch")
        else checkOIDValues_from n spl rest' (S ix)
      else
        let idx := Go.idxr arc "(" in
        if negb (idx =? -1) then
          let inner := Go.trimR (Go.drop (Z.to_nat idx + 1) arc) ")" in
          if negb (IsNumber inner) then Some (mkerr ("ARC NAN: " ++ arc))
          else if negb (String.eqb inner (nth ix spl ""))
               then Some (mkerr "NameAndNumberForm mismatch")
               else checkOIDValues_from n spl rest' (S ix)
        else checkOIDValues_from n spl rest' (S ix)
  end.

(** [checkOIDValues]: make sure things add up.  The first argument is
    not used. *)
Definition checkOIDValues (o : string) (isp spl : list string) : option error :=
  checkOIDValues_from (List.length isp) spl isp O.

(** [OIDTree]: the three roots, each nil until first use. *)
Record OIDTree : Type := mkOIDTree {
  tree0 : option radir.Registration;
  tree1 : option radir.Registration;
  tree2 : option radir.Registration }.

(** [DIT].  [dnseq] counts the distinguished names handed out by the
    entry model's generator; the unused base selector is left out.  The
    receiver is never nil here: [RADIT.New] builds it with [NewDIT]. *)
Record DIT : Type := mkDIT {
  tree : OIDTree;
  aths : list radir.Registrant;
  profile : radir.DITProfile;
  dnseq : nat }.

Definition NewDIT (profile : radir.DITProfile) : DIT :=
  mkDIT (mkOIDTree None None None) [] profile O.

Definition Profile (r : DIT) : radir.DITProfile := profile r.
Definition Registrants (r : DIT) : list radir.Registrant := aths r.

Definition withTree (f : OIDTree -> OIDTree) (r : DIT) : DIT :=
  mkDIT (f (tree r)) (aths r) (profile r) (dnseq r).
Definition withRegistrants (f : list radir.Registrant -> list radir.Registrant)
    (r : DIT) : DIT :=
  mkDIT (tree r) (f (aths r)) (profile r) (dnseq r).

(** The attributes that [ITUT], [ISO] and [JointISOITUT] give a root. *)
Definition newRoot (n iri notation unicode nanf : string) (r : DIT) : radir.Registration :=
  radir.SetDN ("n=" ++ n ++ "," ++ radir.RegistrationBase (profile r))%string
    (radir.SetNameAndNumberForm nanf
      (radir.SetUnicodeValue unicode
        (radir.SetASN1Notation notation
          (radir.SetIRI iri
            (radir.SetN n radir.NewRegistration))))).

(** [ITUT], [ISO], [JointISOITUT]: the root, initialized and stored
    first when it is nil.  The result is the tree with the root in
    place, and the root. *)
Definition ITUT (r : DIT) : DIT * radir.Registration :=
  match tree0 (tree r) with
  | Some root => (r, root)
  | None =>
      let root := newRoot "0" "/ITU-T" "{itu-t(0)}" "ITU-T" "itu-t(0)" r in
      (withTree (fun t => mkOIDTree (Some root) (tree1 t) (tree2 t)) r, root)
  end.

Definition ISO (r : DIT) : DIT * radir.Registration :=
  match tree1 (tree r) with
  | Some root => (r, root)
  | None =>
      let root := newRoot "1" "/ISO" "{iso(1)}" "ISO" "iso(1)" r in
      (withTree (fun t => mkOIDTree (tree0 t) (Some root) (tree2 t)) r, root)
  end.

Definition JointISOITUT (r : DIT) : DIT * radir.Registration :=
  match tree2 (tree r) with
  | Some root => (r, root)
  | None =>
      let root := newRoot "2" "/Joint-ISO-ITU-T" "{joint-iso-itu-t(2)}"
                    "Joint-ISO-ITU-T" "joint-iso-itu-t(2)" r in
      (withTree (fun t => mkOIDTree (tree0 t) (tree1 t) (Some root)) r, root)
  end.

(** Writing through the pointer that [ISO] (or another root getter)
    returned. *)
Definition setITUT (root : radir.Registration) : DIT -> DIT :=
  withTree (fun t => mkOIDTree (Some root) (tree1 t) (tree2 t)).
Definition setISO (root : radir.Registration) : DIT -> DIT :=
  withTree (fun t => mkOIDTree (tree0 t) (Some root) (tree2 t)).
Definition setJointISOITUT (root : radir.Registration) : DIT -> DIT :=
  withTree (fun t => mkOIDTree (tree0 t) (tree1 t) (Some root)).

(** [Root(n)] for n = 0, 1, 2: the root getter of that index, paired
    with the way to write through the pointer it returns. *)
Definition Root (n : Z) (r : DIT)
    : option (DIT * radir.Registration * (radir.Registration -> DIT -> DIT)) :=
  if (0 <=? n) && (n <=? 2) then
    if n =? 0 then Some (ITUT r, setITUT)
    else if n =? 1 then Some (ISO r, setISO)
    else Some (JointISOITUT r, setJointISOITUT)
  else None.

(** [Prime(n, nodes...)]: allocate every notation below root [n]. *)
Definition Prime (n : Z) (nodes : list string) (r : DIT) : DIT :=
  match Root n r with
  | Some (r1, root, store) =>
      store (fold_left (fun t node => fst (radir.Allocate node t)) nodes root) r1
  | None => r
  end.

End common.

(** ** [internal/iso/pen.go]: the PEN registry and the SMI registry *)

Module iso.

Definition entASNPfx : string :=
  "{iso(1) identified-organization(3) dod(6) internet(1) private(4) enterprise(1)".
Definition entDotPfx : string := "1.3.6.1.4.1".

Definition nilInstanceErr : error := mkerr "Instance or receiver is nil; must initialize".

(** [pen]: one registered enterprise number. *)
Record pen : Type := mkpen {
  Decimal : Z;
  Name : string;
  Contact : string;
  Email : string }.

(** [xref]: the "xref" element. *)
Record xref : Type := mkxref {
  xr_Type : string;
  xr_Data : string;
  xr_Content : string }.

(** [inner]: "registration_rule", "expert" and "note" elements. *)
Record inner : Type := mkinner {
  Text : string;
  Title : string;
  inner_XRef : list xref;
  FullText : string }.

Record footnote : Type := mkfootnote {
  Anchor : string;
  footnote_Text : string }.

Record person : Type := mkperson {
  person_ID : string;
  person_Name : string;
  person_URI : string;
  person_Updated : string;
  person_RegID : string }.

Record record : Type := mkrecord {
  rec_Date : string;
  rec_Value : string;
  rec_Name : string;
  rec_Description : string;
  rec_Recommended : string;
  rec_XRef : list xref }.

(** [registry]: a recursive registry.  The back pointer [smireg] is
    replaced by passing the tree and the people map along; [experts]
    holds the authorities gathered for this registry. *)
#[warnings="-register-all"]
Inductive registry : Type := mkregistry {
  reg_Description : string;
  reg_ID : string;
  reg_Title : string;
  reg_Updated : string;
  reg_Rule : inner;
  reg_Expert : inner;
  reg_Note : list inner;
  reg_XRef : list xref;
  reg_Registries : list registry;
  reg_Records : list record;
  reg_Footnote : list footnote;
  reg_experts : list radir.Registrant }.

(** [smiRegistry]: the top-level document.  Its [DIT] and [people]
    fields are the state below. *)
Record smiRegistry : Type := mksmiRegistry {
  smi_XMLNS : string;
  smi_Title : string;
  smi_ID : string;
  smi_Updated : string;
  smi_Note : list inner;
  smi_People : list person;
  smi_Registries : list registry }.

(** What is outside these sources: two predicates of go-radir, the
    decoder of package [encoding/xml] behind [inner.unmarshalXML], and
    the curated tables of package [iso]. *)
Class Externals : Type := {
  (** [radir.IsIdentifier]: the X.680 identifier grammar. *)
  IsIdentifier : string -> bool;
  (** [radir.IsNumericOID]: a dotted numeric path. *)
  IsNumericOID : string -> bool;
  (** [inner.unmarshalXML]: decodes the inner markup of a note, setting
      [FullText] and [XRef]; the error is the one it returns. *)
  unmarshalXML : inner -> inner * option error;
  (** [i2i]: the static identifier overrides. *)
  i2i : gmap string string;
  (** [missingRecordNames]: names missing from the registry, by parent
      path and number. *)
  missingRecordNames : gmap string (gmap string string);
  (** [missingRegistryURNs]. *)
  missingRegistryURNs : gmap string string;
  (** [JesseOID]: the supplement loaded below 1.3.6.1.4.1.56521. *)
  JesseOID : list string }.

(** The files an import reads.  A text file is its lines, as
    [bufio.Scanner] yields them; an XML file is the document that
    [xml.Unmarshal] builds from it. *)
Inductive textFile : Type :=
| NoText (err : error)
| Lines (lines : list string).

Inductive xmlFile : Type :=
| NoXML (err : error)
| Malformed (err : error)
| Document (smi : smiRegistry).

Record FileSystem : Type := mkFileSystem {
  open : string -> textFile;
  readXML : string -> xmlFile }.

(** The state of one SMI load: the tree and [smiRegistry.people]. *)
Record smiState : Type := mksmiState {
  DIT : common.DIT;
  people : gmap string radir.Registrant }.

Section WithExternals.

Context {ext : Externals}.

(** Writing through a pointer below the ISO root, and through the
    pointer to the authority pushed at position [i] of the ordered
    collection: [Registrants().Push] stores the pointer, so a later
    write through it shows in the collection. *)
Definition atISO (f : radir.Registration -> radir.Registration) (d : common.DIT)
    : common.DIT :=
  match common.tree1 (common.tree d) with
  | Some root => common.setISO (f root) d
  | None => d
  end.

Definition isoRoot (d : common.DIT) : radir.Registration := snd (common.ISO d).

Definition atRegistration (child : option radir.path)
    (f : radir.Registration -> radir.Registration) : common.DIT -> common.DIT :=
  atISO (radir.update child f).

Definition atRegistrant (i : nat) (f : radir.Registrant -> radir.Registrant)
    : common.DIT -> common.DIT :=
  common.withRegistrants (radir.alter_nth f i).

(** Modelled from the spec: a setter of go-radir ("get/set" of the
    collaborator contract) that is given a string stores it and returns
    no error. *)
Definition setter (f : string -> common.DIT -> common.DIT)
    : string -> common.DIT -> common.DIT * option error :=
  fun v d => (f v d, None).

(** *** The PEN registry *)

(** The loop over the [Field]/[Func] table of [handleRegistrant]: a
    field that is neither "---none---" nor empty is passed to its setter,
    and the first error ends the loop. *)
Fixpoint applyFields
    (table : list (string * (string -> common.DIT -> common.DIT * option error)))
    (d : common.DIT) : common.DIT * option error :=
  match table with
  | [] => (d, None)
  | (field, func) :: rest =>
      if negb (String.eqb field "---none---") && negb (String.eqb field "")
      then match func field d with
           | (d', Some e) => (d', Some e)
           | (d', None) => applyFields rest d'
           end
      else applyFields rest d
  end.

Definition handleRegistrant (r : pen) (child : option radir.path) (dit : common.DIT)
    : common.DIT * option error :=
  if radir.Dedicated (common.Profile dit) then
    (* Process DEDICATED registrants *)
    let athy := radir.SetRegistrantDN
                  (radir.RegistrantDNGenerator (common.dnseq dit)
                     (radir.RegistrantBase (common.Profile dit)))
                  radir.NewRegistrant in
    let dit := common.mkDIT (common.tree dit) (common.aths dit) (common.profile dit)
                            (S (common.dnseq dit)) in
    let dit := atRegistration child (radir.SetCurrentAuthorities (radir.A_DN athy)) dit in
    let i := List.length (common.Registrants dit) in
    let dit := common.withRegistrants (fun l => l ++ [athy]) dit in
    applyFields
      [ (Name r, setter (fun v => atRegistrant i (radir.withAuthority (radir.SetO v))));
        (Name r, setter (fun v => atRegistrant i (radir.SetRegistrantDescription v)));
        (Name r, setter (fun v => atRegistration child (radir.SetDescription v)));
        (Contact r, setter (fun v => atRegistrant i (radir.withAuthority (radir.SetCN v))));
        (Email r, setter (fun v => atRegistrant i (radir.withAuthority (radir.SetEmail v)))) ]
      dit
  else if radir.Combined (common.Profile dit) then
    (* Process COMBINED registrants *)
    applyFields
      [ (Name r, setter (fun v => atRegistration child (radir.withCombined (radir.SetO v))));
        (Name r, setter (fun v => atRegistration child (radir.SetDescription v)));
        (Contact r, setter (fun v => atRegistration child (radir.withCombined (radir.SetCN v))));
        (Email r, setter (fun v => atRegistration child (radir.withCombined (radir.SetEmail v)))) ]
      dit
  else (dit, None).

Definition loadJesseCoretta (dit : common.DIT) : common.DIT :=
  fold_left
    (fun d j => let '(d1, root) := common.ISO d in
                common.setISO (fst (radir.Allocate j root)) d1)
    JesseOID dit.

(** The body of the loop of [penRegistry.unmarshal] for one number. *)
Definition unmarshalNumber (parent : option radir.path)
    (dnFunc : string -> string -> string) (ent : pen) (dit : common.DIT)
    : common.DIT * option error :=
  let '(root', child) := radir.NewChild parent (Go.itoa (Decimal ent)) "" (isoRoot dit) in
  let dit := common.setISO root' dit in
  let dit := atRegistration child
               (radir.SetDN (dnFunc (radir.DotNotation child (isoRoot dit))
                                    (radir.RegistrationBase (common.Profile dit)))) dit in
  match handleRegistrant ent child dit with
  | (dit, Some err) => (dit, Some err)
  | (dit, None) =>
      if String.eqb (radir.N (radir.R_X680 (radir.deref child (isoRoot dit)))) "56521"
      then (loadJesseCoretta dit, None)   (* Load Jesse Coretta's registrations *)
      else (dit, None)
  end.

(** The loop of [penRegistry.unmarshal]: [range] walks the numbers as
    they were when the loop began, so that the re-slicing of
    [r.Numbers] at the end of a turn does not change what is visited;
    the first error ends the loop. *)
Fixpoint unmarshalNumbers (parent : option radir.path)
    (dnFunc : string -> string -> string) (numbers : list pen) (dit : common.DIT)
    : common.DIT * option error :=
  match numbers with
  | [] => (dit, None)
  | ent :: rest =>
      match unmarshalNumber parent dnFunc ent dit with
      | (dit', Some err) => (dit', Some err)
      | (dit', None) => unmarshalNumbers parent dnFunc rest dit'
      end
  end.

(** [penRegistry.unmarshal]. *)
Definition penRegistry_unmarshal (numbers : list pen) (dit : common.DIT)
    : common.DIT * option error :=
  let prof := common.Profile dit in
  let '(dit, root) := common.ISO dit in
  let parent := radir.Walk entDotPfx root in
  if radir.IsZero parent then
    (dit, Some (mkerr "Missing 1.3.6.1.4.1 parent; DIT must be primed before use"))
  else
    let dnFunc := match radir.Model prof with
                  | radir.TwoDimensional => radir.DotNotToDN2D
                  | radir.ThreeDimensional => radir.DotNotToDN3D
                  end in
    let dit :=
      if String.eqb (radir.ASN1Notation (radir.R_X680 (radir.deref parent root))) ""
      then atRegistration parent (radir.SetASN1Notation ("{" ++ entASNPfx ++ "}")) dit
      else dit in
    unmarshalNumbers parent dnFunc numbers dit.

(** The state of the line scanner: the group being read and the groups
    emitted so far.  State Decimal is [Decimal ent = -1]. *)
Definition scanState : Type := (pen * list pen)%type.

Definition emit (st : scanState) : scanState :=
  let '(ent, numbers) := st in
  if negb (Decimal ent =? -1)
  then (mkpen (-1) "" "" "", numbers ++ [ent])
  else (ent, numbers).

(** One turn of the scanning loop of [LoadPENRegistry]. *)
Definition scanLine (st : scanState) (line : string) : scanState :=
  let '(ent, numbers) := st in
  if negb (String.eqb (Go.trimS line) "") then
    if Decimal ent =? -1 then
      match Go.Sscanf_d line with
      | Some d => (mkpen d (Name ent) (Contact ent) (Email ent), numbers)
      | None => (ent, numbers)
      end
    else if String.eqb (Name ent) "" then
      (mkpen (Decimal ent) (Go.trimS line) (Contact ent) (Email ent), numbers)
    else if String.eqb (Contact ent) "" then
      (mkpen (Decimal ent) (Name ent) (Go.trimS line) (Email ent), numbers)
    else if String.eqb (Email ent) "" then
      emit (mkpen (Decimal ent) (Name ent) (Contact ent) (Go.trimS line), numbers)
    else emit (ent, numbers)
  else emit (ent, numbers).

Definition scanLines (st : scanState) (lines : list string) : scanState :=
  fold_left scanLine lines st.

Definition skipLines : nat := 16.

(** The groups that [LoadPENRegistry] reads from the lines of a file:
    sixteen lines are passed over, and the scan starts from the zero
    value of [pen] ([var ent pen]), whose [Decimal] is 0. *)
Definition scanFile (lines : list string) : list pen :=
  snd (scanLines (mkpen 0 "" "" "", []) (skipn skipLines lines)).

(** [LoadPENRegistry].  The receiver is never nil here; a file that
    opens is the list of its lines, on which [scanner.Err] is nil. *)
Definition LoadPENRegistry (r : common.DIT) (fs : FileSystem) (filename : string)
    : common.DIT * option error :=
  match open fs filename with
  | NoText err => (r, Some err)
  | Lines lines => penRegistry_unmarshal (scanFile lines) r
  end.

(** *** The cross-reference classifier *)

(** [xref.processDataUsers], on the registration the pointer leads to. *)
Definition processDataUsers (r : xref) (reg : radir.Registration) : radir.Registration :=
  if String.eqb (xr_Data r) "" then reg
  else if String.eqb (xr_Type r) "rfc" || String.eqb (xr_Type r) "draft" then
    radir.SetURI (common.RFCURIPrefix ++ xr_Data r ++ " " ++ Go.uc (xr_Data r)) reg
  else if String.eqb (xr_Type r) "rfc-errata" then
    radir.SetURI (common.RFCErrataPrefix ++ xr_Data r ++ " Errata ID " ++ xr_Data r) reg
  else if String.eqb (xr_Type r) "uri" then
    if negb (String.eqb (xr_Content r) "") then
      (* There may be a link label ... *)
      radir.SetURI (xr_Data r ++ " " ++ xr_Content r) reg
    else reg
  else if String.eqb (xr_Type r) "note" then
    if String.eqb (xr_Data r) "1" then
      (* This seems to indicate obsolescence *)
      radir.SetStatus "OBSOLETE" reg
    else radir.SetInfo (xr_Data r) reg
  else reg.

(** [xref.processContentUsers]. *)
Definition processContentUsers (r : xref) (reg : radir.Registration) : radir.Registration :=
  if String.eqb (xr_Content r) "Not Defined ?" || String.eqb (xr_Content r) "" then reg
  else if String.eqb (xr_Type r) "registry" then
    radir.SetInfo (common.RemoveNL (xr_Content r)) reg
  else if String.eqb (xr_Type r) "text" then
    let value := common.CondenseWHSP (common.RemoveNL (xr_Content r)) in
    if Go.eqFold value "obsolete" then radir.SetStatus "OBSOLETE" reg
    else radir.SetInfo value reg
  else reg.

Definition isDataUser (t : string) : bool :=
  String.eqb t "rfc" || String.eqb t "rfc-errata" || String.eqb t "draft" ||
  String.eqb t "note" || String.eqb t "uri" || String.eqb t "person".

(** [xref.process]. *)
Definition process (r : xref) (reg : radir.Registration) : radir.Registration :=
  if String.eqb (xr_Type r) "registry" || String.eqb (xr_Type r) "text"
  then processContentUsers r reg
  else if isDataUser (xr_Type r) then processDataUsers r reg
  else reg.

(** *** The identifier legalizer *)

(** The loop over the tokens: the first token that legalizes to an
    identifier wins; [None] when a recursive call ran out of fuel. *)
Fixpoint firstLegal (legalize : string -> option string) (ins : list string)
    : option string :=
  match ins with
  | [] => Some ""
  | try :: rest =>
      match legalize try with
      | None => None
      | Some tried => if IsIdentifier tried then Some tried else firstLegal legalize rest
      end
  end.

(** [legalizeIdentifier]; the recursion on the tokens is bounded by
    [fuel], and [None] means that the bound was reached. *)
Fixpoint legalizeIdentifier_fuel (fuel : nat) (in_ : string) : option string :=
  match fuel with
  | O => None
  | S fuel' =>
      if IsIdentifier in_ || (String.length in_ =? 0)%nat then Some in_
      else
        (* Make sure this isn't a "re-allocated" OID *)
        let '(in_, returned) :=
          if Go.ctns (Go.lc in_) "retained by" then
            let '(cut, found) := Go.cutPfx (Go.lc in_) "retained by" in
            if found then (Go.trimS cut, IsIdentifier (Go.trimS cut))
            else (in_, false)
          else (in_, false) in
        if returned then Some in_
        else
          match i2i !! in_ with
          | Some lup => Some lup   (* i2i map lookup succeeded *)
          | None =>
              let ins := Go.split (Go.trimS in_) " " in
              if (1 <? List.length ins)%nat then
                firstLegal (legalizeIdentifier_fuel fuel') ins
              else
                let tweaked := Go.rplc (Go.lc (hd "" ins)) "_" "-" in
                if IsIdentifier tweaked then Some tweaked
                else
                  let tweaked := Go.rplc (Go.lc (hd "" ins)) "." "" in
                  if IsIdentifier tweaked then Some tweaked
                  else Some ""
          end
  end.

(** Every recursive call is on a token shorter than the input, so a
    fuel above the length of the input is never used up (lemma
    [legalizeIdentifier_fuel_enough] below). *)
Definition legalizeIdentifier (in_ : string) : string :=
  match legalizeIdentifier_fuel (S (String.length in_)) in_ with
  | Some out => out
  | None => ""
  end.

(** *** Leaf records *)

(** [record.obsolete]: decided by the first cross-reference of type
    "note" or "text". *)
Fixpoint obsolete_xrefs (l : list xref) : bool :=
  match l with
  | [] => false
  | xr :: rest =>
      if String.eqb (xr_Type xr) "note" then String.eqb (xr_Data xr) "1"
      else if String.eqb (xr_Type xr) "text" then String.eqb (Go.lc (xr_Content xr)) "obsolete"
      else obsolete_xrefs rest
  end.

Definition obsolete (r : record) : bool := obsolete_xrefs (rec_XRef r).

(** [record.processValue]: dot, number, range terminus, error. *)
Definition processValue (r : record) : string * string * string * option error :=
  let v := rec_Value r in
  if Go.hasSfx v " and up" then
    (* Seems to be an INFINITE range *)
    ("", Go.take (String.length v - 7) v, "-1", None)
  else if negb (Go.idxr v "-" =? -1) then
    (* Seems to be a FINITE range *)
    let sp := Go.split v "-" in
    ("", nth 0 sp "", nth 1 sp "", None)
  else if common.IsNumber v then ("", v, "", None)
  else if IsNumericOID v then
    let sp := Go.split v "." in
    (v, List.last sp "", "", None)
  else
    ("", "", "", Some (mkerr ("Bad value; not a range, number form or dotNotation: " ++ v))).

(** [patchMissingName]. *)
Definition patchMissingName (oid leaf : string) : string * bool :=
  if negb (common.IsNumber leaf) then ("", false)
  else
    match missingRecordNames !! oid with
    | Some entry =>
        match entry !! leaf with
        | Some name => (name, true)
        | None => ("", false)
        end
    | None => ("", false)
    end.

(** [record.processIdentifier]. *)
Definition processIdentifier (r : record) (dot : string) : string :=
  if negb (common.IsNumber (rec_Name r)) then
    let identifier :=
      if String.eqb (rec_Name r) "" then
        let '(identifier, found) := patchMissingName dot (rec_Value r) in
        if negb found && (0 <? String.length (rec_Description r))%nat
        then rec_Description r else identifier
      else rec_Name r in
    let identifier := legalizeIdentifier identifier in
    if negb (IsIdentifier identifier) then
      let alt := legalizeIdentifier (rec_Description r) in
      if IsIdentifier alt then alt else ""
    else identifier
  else "".

(** The cross-references of one record, applied to its new child. *)
Definition processRecordXRef (dedi comb : bool) (people : gmap string radir.Registrant)
    (child : option radir.path) (root : radir.Registration) (xr : xref)
    : radir.Registration :=
  let root := radir.update child (process xr) root in
  if String.eqb (xr_Type xr) "person" then
    match people !! xr_Data xr with
    | Some athy =>
        let cath := radir.A_CurrentAuthority athy in
        if dedi then
          radir.update child (radir.SetCurrentAuthorities (radir.A_DN athy)) root
        else if comb then
          radir.update child
            (fun c => radir.SetDescription (radir.A_Description athy)
                        (radir.withCombined (radir.SetO (radir.Org cath))
                          (radir.withCombined (radir.SetCN (radir.CN cath))
                            (radir.withCombined (radir.SetEmail (radir.Email cath)) c))))
            root
        else root
    | None => root
    end
  else root.

(** The body of the loop of [records.unmarshal] for one record. *)
Definition unmarshalRecord (dedi comb : bool) (people : gmap string radir.Registrant)
    (parent : option radir.path) (root : radir.Registration) (rec : record)
    : radir.Registration :=
  let '(_, number, rangeTerm, err) := processValue rec in
  if match err with Some _ => true | None => false end || obsolete rec then root
  else
    let identifier := processIdentifier rec (radir.DotNotation parent root) in
    let identifier := if (String.length identifier =? 0)%nat then number else identifier in
    match radir.ChildrenGet parent number root with
    | Some _ => root
    | None =>
        let '(root, child) := radir.NewChild parent number identifier root in
        let root :=
          if negb (String.eqb rangeTerm "")
          then radir.update child (radir.SetRange rangeTerm) root else root in
        let root :=
          if Go.ctns (radir.Identifier (radir.R_X680 (radir.deref child root))) "."
          then radir.update child (radir.SetIdentifier identifier) root else root in
        (* Process the XRef into one of a few possible forms *)
        fold_left (processRecordXRef dedi comb people child) (rec_XRef rec) root
    end.

(** [records.unmarshal]. *)
Definition records_unmarshal (prof : radir.DITProfile)
    (people : gmap string radir.Registrant) (parent : option radir.path)
    (r : list record) (root : radir.Registration) : radir.Registration :=
  let dedi := radir.Dedicated prof in
  let comb := radir.Combined prof in
  let root := fold_left (unmarshalRecord dedi comb people parent) r root in
  (* Sort children *)
  radir.update parent (radir.withChildren radir.SortByNumberForm) root.

(** *** Registries *)

(** [descriptionAndOID]. *)
Definition descriptionAndOID (descr : string) : string * string :=
  if negb (String.eqb descr "") then
    let desc :=
      fold_left (fun desc ch => Go.trimS (Go.rplc desc ch "")) ["["; "]"; "("; ")"] descr in
    let sp := Go.split desc " " in
    let '(desc, dot) :=
      fold_left
        (fun '(desc, dot) tok =>
           let tok := Go.trimR tok "." in
           if IsNumericOID tok then (desc, tok) else (tok, dot))
        sp (desc, "") in
    (desc, Go.trimR dot ".")
  else ("", "").

(** The elements of the notation built by [buildASN1Not]. *)
Fixpoint nameAndNumberForms (sp path : list string) : list string :=
  match path, sp with
  | p :: path', n :: sp' =>
      (if negb (common.IsNumber p)
       then (p ++ "(" ++ n ++ ")")%string   (* name and number form *)
       else n)                              (* number form only *)
      :: nameAndNumberForms sp' path'
  | _, _ => []
  end.

(** [buildASN1Not]. *)
Definition buildASN1Not (sp path : list string) : string :=
  if (List.length sp =? List.length path)%nat then
    let path :=
      match path with
      | p0 :: p1 :: rest =>
          (* replace URN "org" with ASN.1 "identified-organization". *)
          if String.eqb p1 "org" then p0 :: "identified-organization" :: rest else path
      | _ => path
      end in
    ("{" ++ Go.join (nameAndNumberForms sp path) " " ++ "}")%string
  else "".

(** The cross-references of a decoded note, as [unmarshalRecords]
    rewrites them before dispatch. *)
Definition noteXRef (title : string) (xr : xref) : xref :=
  if String.eqb (xr_Type xr) "uri" && negb (String.eqb title "") then
    mkxref (xr_Type xr) (xr_Data xr) title
  else if String.eqb (xr_Type xr) "registry" then
    mkxref "uri" (common.IANAAssignmentsPrefix ++ xr_Data xr) (xr_Content xr)
  else xr.

(** The loop over the notes of a registry; the first decoding error
    ends it. *)
Fixpoint processNotes (parent : option radir.path) (notes : list inner)
    (root : radir.Registration) : radir.Registration * option error :=
  match notes with
  | [] => (root, None)
  | n :: rest =>
      let clean := Go.trimS (Text n) in
      let clean := Go.trimL clean "\n" in
      let clean := Go.trimR clean "\n" in
      let clean := Go.trimR clean "\n" in
      match unmarshalXML n with
      | (_, Some err) => (root, Some err)
      | (n', None) =>
          let root :=
            if (0 <? String.length (FullText n'))%nat && negb (String.eqb clean "")
               && negb (Go.hasPfx clean "<")
            then
              (* Don't write pure xml content as reg info. *)
              radir.update parent
                (radir.SetInfo (common.CondenseWHSP (common.RemoveNL (FullText n')))) root
            else root in
          let root :=
            fold_left (fun t xr => radir.update parent (process (noteXRef (Title n) xr)) t)
                      (inner_XRef n') root in
          processNotes parent rest root
      end
  end.

(** [registry.unmarshalRecords]. *)
Definition unmarshalRecords (r : registry) (st : smiState) : common.DIT * option error :=
  let dit := DIT st in
  let srcinfo :=
    if negb (String.eqb (reg_Title r) "") && String.eqb (reg_Description r) ""
    then reg_Title r else reg_Description r in
  let '(desc, oid) := descriptionAndOID srcinfo in
  if String.eqb oid "" then (dit, None)
  else
    let sp := Go.split oid "." in
    let '(dit, root) := common.ISO dit in
    let '(root, parent) := radir.Allocate oid root in
    (* Process experts into registrant data *)
    let root :=
      fold_left (fun t expert =>
                   radir.update parent (radir.SetCurrentAuthorities (radir.A_DN expert)) t)
                (reg_experts r) root in
    let root := fold_left (fun t xr => radir.update parent (process xr) t) (reg_XRef r) root in
    match processNotes parent (reg_Note r) root with
    | (root, Some err) => (common.setISO root dit, Some err)
    | (root, None) =>
        let dot := radir.DotNotation parent root in
        if negb (String.eqb dot oid) then
          (common.setISO root dit, Some (mkerr ("Allocation error: " ++ dot ++ " != " ++ oid)))
        else
          let dp := Go.split desc "." in
          let '(path, ident) :=
            if (List.length dp =? List.length sp)%nat then (dp, List.last dp "")
            else ([], "") in
          let root :=
            if String.eqb (radir.Identifier (radir.R_X680 (radir.deref parent root))) ""
            then radir.update parent (radir.SetIdentifier ident) root else root in
          let root := radir.update parent (radir.SetASN1Notation (buildASN1Not sp path)) root in
          let root := records_unmarshal (common.Profile dit) (people st) parent
                        (reg_Records r) root in
          (common.setISO root dit, None)
    end.

(** [registry.unmarshal]: the records of the registry, then its
    sub-registries in order; the first error ends the walk. *)
Fixpoint registry_unmarshal (people_ : gmap string radir.Registrant) (r : registry)
    (dit : common.DIT) {struct r} : common.DIT * option error :=
  match unmarshalRecords r (mksmiState dit people_) with
  | (dit, Some err) => (dit, Some err)
  | (dit, None) =>
      (fix subregistries (l : list registry) (dit : common.DIT)
         : common.DIT * option error :=
         match l with
         | [] => (dit, None)
         | subregi :: l' =>
             match registry_unmarshal people_ subregi dit with
             | (dit, Some err) => (dit, Some err)
             | (dit, None) => subregistries l' dit
             end
         end) (reg_Registries r) dit
  end.

(** *** Authorities *)

(** A new authority with a generated name. *)
Definition newAuthority (dit : common.DIT) : radir.Registrant * common.DIT :=
  (radir.SetRegistrantDN
     (radir.RegistrantDNGenerator (common.dnseq dit)
        (radir.RegistrantBase (common.Profile dit)))
     radir.NewRegistrant,
   common.mkDIT (common.tree dit) (common.aths dit) (common.profile dit)
                (S (common.dnseq dit))).

(** The body of the loop of [gatherExperts] for one name of the expert
    text; the result carries the authority when one was created. *)
Definition gatherExpert (sl : string) (st : smiState)
    : option radir.Registrant * smiState :=
  let orig := Go.trimS sl in
  let sl := Go.trimS (common.CondenseWHSP sl) in
  let idx := Go.sidx sl " (" in
  let '(desc, sl) :=
    if negb (idx =? -1)
    then (("IANA, " ++ Go.trimR (Go.drop (Z.to_nat idx + 2) sl) ")")%string,
          Go.take (Z.to_nat idx) sl)
    else ("IANA", sl) in
  if negb (String.eqb sl "") then
    match people st !! orig with
    | Some _ => (None, st)
    | None =>
        let '(athy, dit) := newAuthority (DIT st) in
        let athy := radir.withAuthority (radir.SetCN sl) athy in
        let athy := radir.withAuthority (radir.SetO desc) athy in
        (Some athy,
         mksmiState (common.withRegistrants (fun l => l ++ [athy]) dit)
                    (<[orig := athy]> (people st)))
    end
  else (None, st).

Fixpoint gatherExpertNames (names : list string) (experts : list radir.Registrant)
    (st : smiState) : list radir.Registrant * smiState :=
  match names with
  | [] => (experts, st)
  | sl :: rest =>
      match gatherExpert sl st with
      | (Some athy, st') => gatherExpertNames rest (experts ++ [athy]) st'
      | (None, st') => gatherExpertNames rest experts st'
      end
  end.

(** [registry.gatherExperts]: fills [experts] here and below. *)
Fixpoint gatherExperts (r : registry) (st : smiState) {struct r} : registry * smiState :=
  match r with
  | mkregistry description id title updated rule expert note xrefs registries records_
               footnote experts =>
      let '(experts, st) := gatherExpertNames (Go.split (Text expert) ",") experts st in
      let '(registries, st) :=
        (fix below (l : list registry) (st : smiState) : list registry * smiState :=
           match l with
           | [] => ([], st)
           | sub :: l' =>
               let '(sub', st) := gatherExperts sub st in
               let '(l'', st) := below l' st in
               (sub' :: l'', st)
           end) registries st in
      (mkregistry description id title updated rule expert note xrefs registries records_
                  footnote experts, st)
  end.

(** The body of the loop of [gatherRegistrants] for one person. *)
Definition gatherPerson (st : smiState) (p : person) : smiState :=
  match people st !! person_ID p with
  | Some _ => st
  | None =>
      let '(regi, dit) := newAuthority (DIT st) in
      let regi := radir.withAuthority (radir.SetCN (person_Name p)) regi in
      let regi := radir.SetRegistrantDescription (person_Name p) regi in
      let regi :=
        let uri := person_URI p in
        if (0 <? String.length uri)%nat then
          if Go.hasPfx uri "mailto:" then
            (* URI is an email address. *)
            let uri := Go.drop 7 uri in
            let uri := Go.rplc uri "&" "@" in
            let uri := Go.rplc uri "%25" "%" in
            radir.withAuthority (radir.SetEmail uri) regi
          else
            (* Sometimes a URI is just a URI. *)
            radir.withAuthority (radir.SetAuthURI uri) regi
        else regi in
      let regi :=
        if (0 <? String.length (person_Name p))%nat then
          if String.eqb (person_Name p) "IANA"
          then radir.withAuthority (radir.SetO (person_Name p)) regi
          else radir.withAuthority (radir.SetCN (person_Name p)) regi
        else regi in
      mksmiState (common.withRegistrants (fun l => l ++ [regi]) dit)
                 (<[person_ID p := regi]> (people st))
  end.

Fixpoint gatherAll (l : list registry) (st : smiState) : list registry * smiState :=
  match l with
  | [] => ([], st)
  | regi :: l' =>
      let '(regi', st) := gatherExperts regi st in
      let '(l'', st) := gatherAll l' st in
      (regi' :: l'', st)
  end.

(** [smiRegistry.gatherRegistrants]. *)
Definition gatherRegistrants (r : smiRegistry) (st : smiState)
    : list registry * smiState :=
  let st := fold_left gatherPerson (smi_People r) st in
  gatherAll (smi_Registries r) st.

Definition withDescription (d : string) (r : registry) : registry :=
  mkregistry d (reg_ID r) (reg_Title r) (reg_Updated r) (reg_Rule r) (reg_Expert r)
             (reg_Note r) (reg_XRef r) (reg_Registries r) (reg_Records r)
             (reg_Footnote r) (reg_experts r).

(** The loop of [smiRegistry.unmarshal] over the top-level registries. *)
Fixpoint unmarshalRegistries (people_ : gmap string radir.Registrant)
    (l : list registry) (dit : common.DIT) : common.DIT * option error :=
  match l with
  | [] => (dit, None)
  | regi :: l' =>
      let regi :=
        match missingRegistryURNs !! reg_ID regi with
        | Some k => withDescription (default "" (missingRegistryURNs !! k)) regi
        | None => regi
        end in
      match registry_unmarshal people_ regi dit with
      | (dit, Some err) => (dit, Some err)
      | (dit, None) => unmarshalRegistries people_ l' dit
      end
  end.

(** [smiRegistry.unmarshal]. *)
Definition smiRegistry_unmarshal (r : smiRegistry) (st : smiState)
    : common.DIT * option error :=
  let '(registries, st) := gatherRegistrants r st in
  (* Process all registries, descending into Records and (sub)
     Registries as needed. *)
  unmarshalRegistries (people st) registries (DIT st).

(** [LoadSMIRegistry]: the people map is made anew for every load. *)
Definition LoadSMIRegistry (r : common.DIT) (fs : FileSystem) (filename : string)
    : common.DIT * option error :=
  match readXML fs filename with
  | NoXML err => (r, Some err)
  | Malformed err => (r, Some err)
  | Document smi => smiRegistry_unmarshal smi (mksmiState r ∅)
  end.

End WithExternals.

End iso.

(** ** The assembly driver (package radit) *)

Module radit.

Section WithExternals.

Context {ext : iso.Externals}.

Record RADIT : Type := mkRADIT { dit : common.DIT }.

Definition New (cfg : radir.DITProfile) : RADIT := mkRADIT (common.NewDIT cfg).

(** [ImportList] is a map; [None] is the nil map. *)
Definition ImportList : Type := gmap string string.

(** [RADIT.Import]. *)
Definition Import (r : RADIT) (fs : iso.FileSystem) (imp : option ImportList)
    : RADIT * option error :=
  match imp with
  | None =>
      let _ := mkerr "ImportList instance is nil, aborting import" in
      (r, None)
  | Some imp =>
      let step (key : string) (load : common.DIT -> iso.FileSystem -> string ->
                                      common.DIT * option error)
               (k : RADIT -> RADIT * option error) (r : RADIT) : RADIT * option error :=
        match imp !! key with
        | Some file =>
            match load (dit r) fs file with
            | (d, Some err) => (mkRADIT d, Some err)
            | (d, None) => k (mkRADIT d)
            end
        | None => k r
        end in
      step "smifile" iso.LoadSMIRegistry
        (step "ldapfile" iso.LoadSMIRegistry
          (step "penfile" iso.LoadPENRegistry (fun r => (r, None)))) r
  end.

End WithExternals.

End radit.

(** ** A concrete environment

    An instance of what lies outside the sources, used to run the model
    on concrete inputs. *)

Module Sample.

(** Modelled from the spec: [radir.IsIdentifier], "the identifier
    grammar" of X.680: a lower-case letter, then letters, digits and
    hyphens, no hyphen last and no two hyphens in a row. *)
Fixpoint identifierTail (prevHyphen : bool) (s : string) : bool :=
  match s with
  | EmptyString => negb prevHyphen
  | String c r =>
      if Ascii.eqb c "-" then negb prevHyphen && identifierTail true r
      else (Go.isLower c || Go.isUpper c || Go.isDigit c) && identifierTail false r
  end.

Definition IsIdentifier (s : string) : bool :=
  match s with
  | EmptyString => false
  | String c r => Go.isLower c && identifierTail false r
  end.

(** Modelled from the spec: [radir.IsNumericOID], "a dotted numeric
    path": two or more number forms joined by dots. *)
Definition IsNumericOID (s : string) : bool :=
  let arcs := Go.split s "." in
  (1 <? List.length arcs)%nat && forallb radir.IsNumber arcs.

(** A decoder for notes without inner markup: the full text is the
    text. *)
Definition unmarshalXML (n : iso.inner) : iso.inner * option error :=
  (iso.mkinner (iso.Text n) (iso.Title n) (iso.inner_XRef n) (iso.Text n), None).

Definition i2i : gmap string string :=
  {[ "IEEE802.4" := "ieee802dot4" ]}.

Definition JesseOID : list string :=
  [ "{iso(1) identified-organization(3) dod(6) internet(1) private(4) enterprise(1) 56521 example(999)}" ].

#[global] Instance externals : iso.Externals := {
  iso.IsIdentifier := IsIdentifier;
  iso.IsNumericOID := IsNumericOID;
  iso.unmarshalXML := unmarshalXML;
  iso.i2i := i2i;
  iso.missingRecordNames := ∅;
  iso.missingRegistryURNs := ∅;
  iso.JesseOID := JesseOID }.

Definition profileDedicated : radir.DITProfile :=
  radir.mkDITProfile true false radir.ThreeDimensional
    "ou=Registrations,o=rA" "ou=Registrants,o=rA".

Definition profileCombined : radir.DITProfile :=
  radir.mkDITProfile false true radir.ThreeDimensional
    "ou=Registrations,o=rA" "ou=Registrants,o=rA".

(** The head of an unmodified PEN registry file: fifteen lines of
    titles and column captions, then the decimal line of number 0. *)
Definition penHeader : list string :=
  [ "PRIVATE ENTERPRISE NUMBERS"; "";
    "(last updated 2024-01-01)"; "";
    "SMI Network Management Private Enterprise Codes:"; "";
    "Prefix: iso.org.dod.internet.private.enterprise (1.3.6.1.4.1)"; "";
    "This file is https://www.iana.org/assignments/enterprise-numbers.txt"; "";
    "Decimal"; "| Organization"; "| | Contact"; "| | | Email"; "| | | |";
    "0" ].

Definition penFile : list string :=
  penHeader ++
  [ "  Reserved"; "    Internet Assigned Numbers Authority"; "      iana&iana.org";
    "56521"; "  ACME"; "    Jane Doe"; "      jane@acme.example" ].

Definition emptyInner : iso.inner := iso.mkinner "" "" [] "".



(** A document whose registry 1.3.6.1.2 has one leaf record and a
    sub-registry that is described with a path outside the ISO root. *)
Definition directoryRegistry : iso.registry :=
  iso.mkregistry "joint-iso-itu-t.ds (2.5)" "ds" "" "" emptyInner emptyInner [] [] []
    [ iso.mkrecord "" "4" "attributeType" "" "" [] ] [] [].

Definition mgmtRegistry : iso.registry :=
  iso.mkregistry "iso.org.dod.internet.mgmt (1.3.6.1.2)" "smi-numbers-2" "" ""
    emptyInner emptyInner [] [] [directoryRegistry]
    [ iso.mkrecord "" "1" "mib-2" "" "" [] ] [] [].

Definition mismatchDoc : iso.smiRegistry :=
  iso.mksmiRegistry "" "Structure of Management Information" "smi-numbers" "" [] []
    [ mgmtRegistry ].

Definition mismatchFiles : iso.FileSystem :=
  iso.mkFileSystem (fun _ => iso.Lines penFile) (fun _ => iso.Document mismatchDoc).

Definition allFiles : radit.ImportList :=
  <["smifile" := "smi-numbers.xml"]>
    (<["ldapfile" := "ldap-parameters.xml"]>
      (<["penfile" := "enterprise-numbers.txt"]> ∅)).

End Sample.

(** * Vocabulary of the statements *)

(** ** The line scanner *)




(** ** The legalizer *)


(** ** Leaf records *)




(** ** Authorities *)





(** A key is added to the keys seen so far when it is new. *)
Definition addKey (seen : list string) (k : string) : list string :=
  if bool_decide (k ∈ seen) then seen else seen ++ [k].




(** ** The registry walker *)









(** ** The growing tree *)

(** The attributes of a registration, its children apart. *)
Definition attributes (r : radir.Registration)
    : radir.X680 * radir.X660 * radir.Supplement * string * string :=
  (radir.R_X680 r, radir.R_X660 r, radir.R_Supplement r, radir.R_DN r,
   radir.R_Description r).




(** ** The PEN group of number 56521 *)



Definition enterpriseNotation : string :=
  "{iso(1) identified-organization(3) dod(6) internet(1) private(4) enterprise(1)}".

(** The tree after priming root 1 with that notation. *)
Definition primed (prof : radir.DITProfile) : common.DIT :=
  common.Prime 1 [enterpriseNotation] (common.NewDIT prof).




(** ** The scanner, the classifier and the values of records *)

(** The types of cross-reference that the classifier dispatches. *)
Definition dispatched (t : string) : bool :=
  String.eqb t "registry" || String.eqb t "text" || iso.isDataUser t.

(** A cross-reference on which [record.obsolete] does not decide. *)
Definition undecided (xr : iso.xref) : Prop :=
  iso.xr_Type xr <> "note" /\ iso.xr_Type xr <> "text".

(** A cross-reference that flags its record as obsolete. *)
Definition flagsObsolete (xr : iso.xref) : Prop :=
  (iso.xr_Type xr = "note" /\ iso.xr_Data xr = "1") \/
  (iso.xr_Type xr = "text" /\ Go.lc (iso.xr_Content xr) = "obsolete").

(** A part of an address that holds neither "&" nor "%". *)
Definition plainPart (s : string) : Prop :=
  Go.allb_bytes (fun c => negb (Ascii.eqb c "&") && negb (Ascii.eqb c "%")) s = true.

(** A field that [handleRegistrant] does not store. *)
Definition notGiven (field : string) : Prop := field = "---none---" \/ field = "".

(** Going from [d] to [d'] keeps the profile and the authorities that
    [d] had, and appends [k] authorities. *)
Definition appends (k : nat) (d d' : common.DIT) : Prop :=
  common.profile d' = common.profile d /\
  List.length (common.aths d') = (List.length (common.aths d) + k)%nat /\
  firstn (List.length (common.aths d)) (common.aths d') = common.aths d.

(** Going from [d1] to [d2] keeps the profile, the number of
    authorities and the first [n] of them. *)
Definition keepsFirst (n : nat) (d1 d2 : common.DIT) : Prop :=
  common.profile d2 = common.profile d1 /\
  List.length (common.aths d2) = List.length (common.aths d1) /\
  firstn n (common.aths d2) = firstn n (common.aths d1).

(** ** Text *)

Definition LF : ascii := ascii_of_N 10.

(** Text of ASCII bytes, on which the helpers of package [strings] and
    the byte loops of the sources are modelled exactly (the sources
    write a byte from 128 on as a rune of two bytes). *)
Definition asciiText (s : string) : Prop :=
  Go.allb_bytes (fun c => (Go.byte_of c <? 128)%N) s = true.

(** White space or a horizontal tab, as [CondenseWHSP] tests it. *)
Definition isWHSP (c : ascii) : bool :=
  (N.eqb (Go.byte_of c) 9 || N.eqb (Go.byte_of c) 32)%bool.

(** No horizontal tab and no two spaces in a row; [prev] tells whether
    a space stood before. *)
Fixpoint condensed_go (prev : bool) (s : string) : bool :=
  match s with
  | EmptyString => true
  | String c r =>
      if N.eqb (Go.byte_of c) 9 then false
      else if N.eqb (Go.byte_of c) 32 then negb prev && condensed_go true r
      else condensed_go false r
  end.

Definition condensed (s : string) : Prop := condensed_go false s = true.

(** The first and the last byte of a string. *)
Definition headByte (s : string) : option ascii :=
  match s with
  | EmptyString => None
  | String c _ => Some c
  end.

Fixpoint lastByte (s : string) : option ascii :=
  match s with
  | EmptyString => None
  | String c EmptyString => Some c
  | String _ r => lastByte r
  end.

(** No byte of the kind [p] at either end. *)
Definition trimmedBy (p : ascii -> bool) (s : string) : Prop :=
  match headByte s, lastByte s with
  | Some h, Some l => p h = false /\ p l = false
  | _, _ => s = ""
  end.

(** No white space at either end. *)
Definition trimmed (s : string) : Prop := trimmedBy Go.isSpace s.

(** An element of a notation agrees with an arc: a number is the arc;
    a "name(number)" form holds the arc between its brackets; anything
    else is not looked at. *)
Definition arcAgrees (elem arc : string) : Prop :=
  if common.IsNumber elem then elem = arc
  else
    let idx := Go.idxr elem "(" in
    if idx =? -1 then True
    else
      let inner := Go.trimR (Go.drop (Z.to_nat idx + 1) elem) ")" in
      common.IsNumber inner = true /\ inner = arc.

(** ** Roots and imports *)

(** The root of index [n] in a tree. *)
Definition rootAt (n : Z) (t : common.OIDTree) : option radir.Registration :=
  if n =? 0 then common.tree0 t
  else if n =? 1 then common.tree1 t
  else if n =? 2 then common.tree2 t
  else None.

(** The list that holds the entry of [imp] under [key], if any, and
    nothing else. *)
Definition only (key : string) (imp : radit.ImportList) : radit.ImportList :=
  match imp !! key with
  | Some file => {[ key := file ]}
  | None => ∅
  end.

(** One import after another, the second one when the first returned
    no error. *)
Definition andThen {A : Type} (first : A * option error) (next : A -> A * option error)
    : A * option error :=
  match first with
  | (a, Some err) => (a, Some err)
  | (a, None) => next a
  end.

(** * Properties *)

(** ** The helpers on concrete inputs *)

Example lc_ex : Go.lc "Retained By X_y" = "retained by x_y".
Proof. reflexivity. Qed.
Example split_ex : Go.split "a  b" " " = ["a"; ""; "b"].
Proof. reflexivity. Qed.
Example split_empty_ex : Go.split "" "." = [""].
Proof. reflexivity. Qed.
Example rplc_ex : Go.rplc "a%25b%25" "%25" "%" = "a%b%".
Proof. reflexivity. Qed.
Example trimS_ex : Go.trimS "  x y 	" = "x y".
Proof. reflexivity. Qed.
Example trimR_ex : Go.trimR "1.3.6.." "." = "1.3.6".
Proof. reflexivity. Qed.
Example itoa_ex : Go.itoa 56521 = "56521".
Proof. reflexivity. Qed.
Example Sscanf_ex : Go.Sscanf_d "  56521 x" = Some 56521 /\ Go.Sscanf_d "jane@acme.example" = None.
Proof. split; reflexivity. Qed.
Example hasSfx_ex : Go.hasSfx "100 and up" " and up" = true.
Proof. reflexivity. Qed.
Example sidx_ex : Go.sidx "Jane (ACME)" " (" = 4.
Proof. reflexivity. Qed.
Example parsePath_ex :
  radir.parsePath "{iso(1) identified-organization(3) dod(6) 1}"
  = Some [("1", "iso"); ("3", "identified-organization"); ("6", "dod"); ("1", "")].
Proof. reflexivity. Qed.
Example parsePath_dot_ex : radir.parsePath "1.3.6" = Some [("1", ""); ("3", ""); ("6", "")].
Proof. reflexivity. Qed.
Example DN3D_ex : radir.DotNotToDN3D "1.3.6" "dc=x" = "n=6,n=3,n=1,dc=x".
Proof. reflexivity. Qed.

(** ** The line scanner of the PEN registry *)

Section Scanner.


Lemma eqb_empty_false s : s <> "" -> String.eqb s "" = false.
Proof. intros H. apply String.eqb_neq. exact H. Qed.








End Scanner.






(** ** The assembly driver *)

(** C9.  [Import] with a nil [ImportList] returns a nil error and
    leaves the receiver as it is: the error value is built and dropped. *)
Theorem Import_nil_returns_nil `{ext : iso.Externals}
    (r : radit.RADIT) (fs : iso.FileSystem) :
  radit.Import r fs None = (r, None).
Proof. reflexivity. Qed.

(** ** The cross-reference classifier *)

(** C10.  A cross-reference of type "registry" or "text" whose content
    is empty or is "Not Defined ?" leaves the registration as it is, in
    particular its info and its status. *)
Theorem process_content_ignored (xr : iso.xref) (reg : radir.Registration) :
  iso.xr_Type xr = "registry" \/ iso.xr_Type xr = "text" ->
  iso.xr_Content xr = "" \/ iso.xr_Content xr = "Not Defined ?" ->
  iso.process xr reg = reg /\
  radir.Info (radir.R_Supplement (iso.process xr reg)) = radir.Info (radir.R_Supplement reg) /\
  radir.Status (radir.R_Supplement (iso.process xr reg))
  = radir.Status (radir.R_Supplement reg).
Proof.
  intros Ht Hc.
  assert (H : iso.process xr reg = reg).
  { unfold iso.process, iso.processContentUsers.
    destruct Ht as [-> | ->]; destruct Hc as [-> | ->]; reflexivity. }
  rewrite H. auto.
Qed.

Lemma process_content_ignored_witness :
  let xr := iso.mkxref "text" "" "Not Defined ?" in
  let reg := radir.SetInfo "kept" radir.NewRegistration in
  iso.process xr reg = reg /\
  radir.Info (radir.R_Supplement (iso.process xr reg)) = "kept" /\
  radir.Status (radir.R_Supplement (iso.process xr reg)) = "".
Proof.
  exact (process_content_ignored (iso.mkxref "text" "" "Not Defined ?")
           (radir.SetInfo "kept" radir.NewRegistration)
           (or_intror eq_refl) (or_intror eq_refl)).
Defined.

(** A cross-reference of type "uri" that has an address and a label
    sets the URI to the address, a space and the label. *)
Lemma process_uri_labelled (data content : string) (reg : radir.Registration) :
  data <> "" -> content <> "" ->
  radir.URI (radir.R_Supplement (iso.process (iso.mkxref "uri" data content) reg))
  = (data ++ " " ++ content)%string.
Proof.
  intros Hd Hc. unfold iso.process, iso.processDataUsers. cbn.
  rewrite (eqb_empty_false _ Hd), (eqb_empty_false _ Hc). reflexivity.
Qed.

(** C7 on the code: a cross-reference of type "uri" with an address
    and no label leaves the URI of the registration unset. *)
Theorem process_uri_without_label :
  radir.URI (radir.R_Supplement
    (iso.process (iso.mkxref "uri" "https://www.iana.org/assignments/smi-numbers" "")
                 radir.NewRegistration)) = "".
Proof. reflexivity. Qed.

(** ** The PEN import and the primed tree *)

Lemma ISO_idem (r : common.DIT) :
  common.ISO (fst (common.ISO r)) = common.ISO r.
Proof.
  unfold common.ISO. destruct (common.tree1 (common.tree r)) eqn:E.
  - cbn. rewrite E. reflexivity.
  - reflexivity.
Qed.

(** C5.  When the ISO root has no node at 1.3.6.1.4.1, the PEN import
    of a readable file returns the error "Missing 1.3.6.1.4.1 parent;
    DIT must be primed before use" and allocates nothing: the tree is
    the one that [ISO] returns (the root itself is initialized when it
    was nil), with the same ISO root, the same authorities, and no
    change at all when the root was there. *)
Theorem pen_import_requires_priming `{ext : iso.Externals}
    (r : common.DIT) (fs : iso.FileSystem) (filename : string) (lines : list string) :
  iso.open fs filename = iso.Lines lines ->
  radir.Walk iso.entDotPfx (iso.isoRoot r) = None ->
  iso.LoadPENRegistry r fs filename
  = (fst (common.ISO r),
     Some (mkerr "Missing 1.3.6.1.4.1 parent; DIT must be primed before use")) /\
  iso.isoRoot (fst (common.ISO r)) = iso.isoRoot r /\
  common.aths (fst (common.ISO r)) = common.aths r /\
  (forall root, common.tree1 (common.tree r) = Some root -> fst (common.ISO r) = r).
Proof.
  intros Hopen Hwalk. repeat split.
  - unfold iso.LoadPENRegistry. rewrite Hopen. unfold iso.penRegistry_unmarshal.
    unfold iso.isoRoot in Hwalk. destruct (common.ISO r) as [d root]. cbn in *.
    rewrite Hwalk. reflexivity.
  - unfold iso.isoRoot. rewrite ISO_idem. reflexivity.
  - unfold common.ISO. destruct (common.tree1 (common.tree r)); reflexivity.
  - intros root Hroot. unfold common.ISO. rewrite Hroot. reflexivity.
Qed.

Lemma pen_import_requires_priming_witness :
  let fs := iso.mkFileSystem (fun _ => iso.Lines Sample.penFile)
                             (fun _ => iso.NoXML (mkerr "no such file")) in
  let r := common.NewDIT Sample.profileDedicated in
  iso.LoadPENRegistry r fs "enterprise-numbers.txt"
  = (fst (common.ISO r),
     Some (mkerr "Missing 1.3.6.1.4.1 parent; DIT must be primed before use")).
Proof.
  exact (proj1 (pen_import_requires_priming
                  (common.NewDIT Sample.profileDedicated)
                  (iso.mkFileSystem (fun _ => iso.Lines Sample.penFile)
                                    (fun _ => iso.NoXML (mkerr "no such file")))
                  "enterprise-numbers.txt" Sample.penFile eq_refl eq_refl)).
Defined.

(** ** Lengths under the string helpers *)

Section StringLengths.

Local Open Scope nat_scope.








Lemma split_nonempty s sep : Go.split s sep <> [].
Proof.
  destruct s as [|c r]; cbn; [discriminate|].
  destruct (Ascii.eqb c sep); [discriminate|].
  destruct (Go.split r sep); discriminate.
Qed.



End StringLengths.

(** ** The identifier legalizer *)

Section Legalizer.

Context {ext : iso.Externals}.

Local Open Scope nat_scope.











End Legalizer.



Example legalize_override_ex : iso.legalizeIdentifier "IEEE802.4" = "ieee802dot4".
Proof. reflexivity. Qed.
Example legalize_tokens_ex : iso.legalizeIdentifier "foo_Bar (Junk)" = "foo-bar".
Proof. reflexivity. Qed.
Example legalize_retained_ex : iso.legalizeIdentifier "Retained by foo" = "foo".
Proof. reflexivity. Qed.
Example legalize_path_ex : iso.legalizeIdentifier "1.3.6.1" = "".
Proof. reflexivity. Qed.

(** ** Obsolete leaf records *)

Section Records.

Context {ext : iso.Externals}.




End Records.



(** ** Authorities *)

Section Authorities.

Context {ext : iso.Externals}.




















(** The walk over the registries appends no authority. *)
Lemma aths_setISO root d : common.aths (common.setISO root d) = common.aths d.
Proof. reflexivity. Qed.







Lemma NoDup_firstOccurrences_aux keys seen :
  NoDup seen -> NoDup (fold_left addKey keys seen).
Proof.
  revert seen. induction keys as [|k keys IH]; intros seen Hnd; [exact Hnd|].
  cbn [fold_left]. apply IH. unfold addKey. case_bool_decide; [exact Hnd|].
  apply NoDup_app. repeat split; [exact Hnd | | apply NoDup_singleton].
  intros x Hx Hx'. apply list_elem_of_singleton in Hx'. subst x. contradiction.
Qed.

End Authorities.




(** ** The allocation check of the registry walker *)

Section Walker.

Context {ext : iso.Externals}.















End Walker.



Example mismatch_error_ex :
  snd (radit.Import (radit.New Sample.profileCombined) Sample.mismatchFiles
         (Some Sample.allFiles))
  = Some "Allocation error:  != 2.5".
Proof. vm_compute. reflexivity. Qed.

(** ** Pointers stay valid while the tree grows *)

Section Tree.







Lemma attributes_withChildren f x : attributes (radir.withChildren f x) = attributes x.
Proof. reflexivity. Qed.





Lemma find_child_nth nf cs i :
  radir.find_child nf cs = Some i ->
  exists c, nth_error cs i = Some c /\ radir.N (radir.R_X680 c) = nf.
Proof.
  revert i. induction cs as [|c cs IH]; intros i H; [discriminate|].
  cbn in H. destruct (String.eqb _ nf) eqn:E.
  - injection H as <-. exists c. split; [reflexivity | apply String.eqb_eq; exact E].
  - destruct (radir.find_child nf cs) as [k|]; [|discriminate].
    injection H as <-. exact (IH k eq_refl).
Qed.



End Tree.

(** ** The PEN import keeps what it has built *)

Section PenImport.

Context {ext : iso.Externals}.

Local Open Scope nat_scope.


















End PenImport.

Section PenNumbers.

Context {ext : iso.Externals}.

Local Open Scope nat_scope.









End PenNumbers.

(** ** The group of number 56521 *)

Section PenGroup.

Context {ext : iso.Externals}.

Local Open Scope nat_scope.









End PenGroup.

Section PenGroupImport.

Context {ext : iso.Externals}.

Local Open Scope nat_scope.


Lemma tree_atRegistrant i f d : common.tree (iso.atRegistrant i f d) = common.tree d.
Proof. reflexivity. Qed.






Lemma primed_profile prof : common.profile (primed prof) = prof.
Proof. reflexivity. Qed.



End PenGroupImport.



(** The identifier of the node of a PEN group is the one that
    [penRegistry.unmarshal] hands to [NewChild]: the empty string. *)
Example pen_group_identifier_ex :
  let fs := iso.mkFileSystem (fun _ => iso.Lines Sample.penFile)
                             (fun _ => iso.NoXML (mkerr "no such file")) in
  let root := iso.isoRoot (fst (iso.LoadPENRegistry (primed Sample.profileCombined) fs
                                  "enterprise-numbers.txt")) in
  radir.Identifier (radir.R_X680
    (radir.deref (radir.Walk "1.3.6.1.4.1.56521" root) root)) = "" /\
  radir.Email (radir.CombinedCurrentAuthority (radir.R_X660
    (radir.deref (radir.Walk "1.3.6.1.4.1.56521" root) root))) = "jane@acme.example".
Proof. vm_compute. split; reflexivity. Qed.
